(** * youtubeagent/app.py: the Flask front-end of the blog-writing crew

    The module body is meant to build one [Crew] at import time and to
    register a single view function, [index], on the rule "/"; as the
    file stands it stops at line 13, where the name [Crew] is not bound.
    The view reads one form field, calls [crew.kickoff] and renders the
    template "index.html".

    The crew engine and the template renderer are external: they are
    taken as parameters (Section variables) that may return or raise and
    that may read and change the state of the outside world.  Every call
    to either of them is also recorded in a log, so that statements about
    how often and in which order they are called can be made. *)

From stdpp Require Import base option list gmap strings.

Open Scope string_scope.
Open Scope list_scope.

(** ** Python values, exceptions and outcomes *)

(** An instance of a subclass of Python's [Exception]: its class name and
    the text that [str(e)] yields.  ([KeyboardInterrupt], [SystemExit]
    and the other classes that derive from [BaseException] only are not
    instances of [Exception] and are outside this type.) *)
Record PyExc : Type := Exc { exc_class : string; exc_message : string }.

Definition str (e : PyExc) : string := exc_message e.

(** A call either returns a value or raises. *)
Inductive Outcome (A : Type) : Type :=
| Returns (a : A)
| Raises (e : PyExc).

Arguments Returns {A} a.
Arguments Raises {A} e.

(** What [crew.kickoff] may hand back: a dict from names to text, or some
    other object.  An object of another class may or may not have a [get]
    attribute; when it has one, calling it may itself raise. *)
Inductive PyVal : Type :=
| VNone
| VStr (s : string)
| VDict (d : gmap string string)
| VObj (cls : string) (get : option (string -> string -> Outcome string)).

Definition type_name (v : PyVal) : string :=
  match v with
  | VNone => "NoneType"
  | VStr _ => "str"
  | VDict _ => "dict"
  | VObj cls _ => cls
  end.

Definition AttributeError (v : PyVal) (attr : string) : PyExc :=
  Exc "AttributeError"
      ("'" +:+ type_name v +:+ "' object has no attribute '" +:+ attr +:+ "'").

(** [result.get(key, dflt)] *)
Definition py_get (result : PyVal) (key dflt : string) : Outcome string :=
  match result with
  | VDict d => Returns (default dflt (d !! key))
  | VObj _ (Some get) => get key dflt
  | _ => Raises (AttributeError result "get")
  end.

(** ** The crew (lines 13-21) *)

Inductive Agent : Type := blog_researcher | blog_writer.
Inductive Task : Type := research_task | write_task.

Module Process.
Inductive t : Type := sequential | hierarchical.
End Process.

Record Crew : Type := mkCrew {
  agents : list Agent;
  tasks : list Task;
  process : Process.t;
  memory : bool;
  cache : bool;
  max_rpm : nat;
  share_crew : bool
}.

Definition crew : Crew :=
  {| agents := [blog_researcher; blog_writer];
     tasks := [research_task; write_task];
     process := Process.sequential;
     memory := true;
     cache := true;
     max_rpm := 100;
     share_crew := true |}.

(** ** Requests *)

(** [request.form] and [request.args] are multi-dicts: ordered, with
    repeated keys allowed; [get] yields the first value of a key. *)
Record Request : Type := mkRequest {
  method : string;
  path : string;
  args : list (string * string);
  form : list (string * string);
  headers : list (string * string)
}.

Fixpoint multidict_get (key : string) (md : list (string * string)) : option string :=
  match md with
  | [] => None
  | (k, v) :: rest => if String.eqb k key then Some v else multidict_get key rest
  end.

(** Python's [not x] for [x] either [None] or a [str]. *)
Definition py_not (x : option string) : bool :=
  match x with
  | None => true
  | Some s => String.eqb s ""
  end.

(** ** Calls that leave the module, and the log of them *)

Inductive Event : Type :=
| ECrew (c : Crew)
| ERequest (r : Request)
| EKickoff (c : Crew) (inputs : gmap string string)
| ERender (template : string) (context : gmap string string).

Definition is_kickoff (ev : Event) : bool :=
  match ev with EKickoff _ _ => true | _ => false end.


Definition kickoff_calls (l : list Event) : list Event := List.filter is_kickoff l.

Section App.

(** The state of everything outside the module (the crew's memory and
    cache, the language-model providers, the template files). *)
Variable World : Type.

(** A rendered page. *)
Variable Page : Type.

Record State : Type := mkState { world : World; log : list Event }.

Definition M (A : Type) : Type := State -> Outcome A * State.

Definition ret {A} (a : A) : M A := fun st => (Returns a, st).

Definition bind {A B} (m : M A) (k : A -> M B) : M B :=
  fun st =>
    match m st with
    | (Returns a, st') => k a st'
    | (Raises e, st') => (Raises e, st')
    end.

Definition lift {A} (o : Outcome A) : M A := fun st => (o, st).

(** [try: body / except Exception as e: handler e] *)
Definition try_except {A} (body : M A) (handler : PyExc -> M A) : M A :=
  fun st =>
    match body st with
    | (Returns a, st') => (Returns a, st')
    | (Raises e, st') => handler e st'
    end.

Definition emit (ev : Event) (w : World) (st : State) : State :=
  {| world := w; log := log st ++ [ev] |}.

(** The two external collaborators. *)
Variable kickoff_impl :
  Crew -> gmap string string -> World -> Outcome PyVal * World.
Variable render_impl :
  string -> gmap string string -> World -> Outcome Page * World.

Definition kickoff (c : Crew) (inputs : gmap string string) : M PyVal :=
  fun st =>
    let (r, w) := kickoff_impl c inputs (world st) in
    (r, emit (EKickoff c inputs) w st).

Definition render_template (template : string) (context : gmap string string) : M Page :=
  fun st =>
    let (r, w) := render_impl template context (world st) in
    (r, emit (ERender template context) w st).

(** ** The view function (lines 23-44) *)

Notation "x <- m ;; k" := (bind m (fun x => k))
  (at level 100, m at next level, right associativity).

Definition index (request : Request) : M Page :=
  if String.eqb (method request) "POST" then
    let topic := multidict_get "topic" (form request) in
    if py_not topic then
      render_template "index.html" {[ "error" := "Please enter a topic." ]}
    else
      (* here [topic] is a non-empty string; [default] only unwraps it *)
      let topic := default "" topic in
      try_except
        (result <- kickoff crew {[ "topic" := topic ]} ;;
         blog_content <- lift (py_get result "write_task_output" "Blog generation failed.") ;;
         render_template "index.html"
           (<[ "topic" := topic ]> {[ "blog_content" := blog_content ]}))
        (fun e =>
           render_template "index.html"
             {[ "error" := "An error occurred: " +:+ str e ]})
  else
    render_template "index.html" ∅.

End App.

Arguments ret {World A} a st.
Arguments bind {World A B} m k st.
Arguments lift {World A} o st.
Arguments try_except {World A} body handler st.
Arguments mkState {World} world log.
Arguments world {World} s.
Arguments log {World} s.
Arguments emit {World} ev w st.
Arguments kickoff {World} kickoff_impl c inputs st.
Arguments render_template {World Page} render_impl template context st.
Arguments index {World Page} kickoff_impl render_impl request st.

Notation "x <- m ;; k" := (bind m (fun x => k))
  (at level 100, m at next level, right associativity).

(** ** Whitespace, as [str.isspace] sees the ASCII range *)

Definition is_space (a : Ascii.ascii) : bool :=
  let n := Ascii.nat_of_ascii a in
  (Nat.leb 9 n && Nat.leb n 13) || (Nat.leb 28 n && Nat.leb n 32).

Fixpoint whitespace_only (s : string) : bool :=
  match s with
  | EmptyString => true
  | String a rest => is_space a && whitespace_only rest
  end.

(** A topic field that is missing, empty or made of whitespace only. *)
Definition blank_topic (topic : option string) : bool :=
  match topic with
  | None => true
  | Some s => whitespace_only s
  end.

(** ** Test doubles for the collaborators

    The world of the doubles is the number of crew runs so far; a page is
    the template name with the context it was given. *)

Definition echo_render (template : string) (context : gmap string string) (w : nat)
  : Outcome (string * gmap string string) * nat :=
  (Returns (template, context), w).

(** Raises whenever it is asked to show blog content. *)
Definition picky_render (template : string) (context : gmap string string) (w : nat)
  : Outcome (string * gmap string string) * nat :=
  match context !! "blog_content" with
  | Some _ => (Raises (Exc "TemplateSyntaxError" "unexpected end of template"), w)
  | None => (Returns (template, context), w)
  end.

Definition cats_kickoff (c : Crew) (inputs : gmap string string) (w : nat)
  : Outcome PyVal * nat :=
  (Returns (VDict {[ "write_task_output" := "Cats are great." ]}), S w).

Definition keyless_kickoff (c : Crew) (inputs : gmap string string) (w : nat)
  : Outcome PyVal * nat :=
  (Returns (VDict {[ "research_task_output" := "notes" ]}), S w).

Definition str_kickoff (c : Crew) (inputs : gmap string string) (w : nat)
  : Outcome PyVal * nat :=
  (Returns (VStr "Cats are great."), S w).

Definition failing_kickoff (c : Crew) (inputs : gmap string string) (w : nat)
  : Outcome PyVal * nat :=
  (Raises (Exc "RuntimeError" "rate limit exceeded"), S w).

Definition post_request (topic : string) : Request :=
  {| method := "POST"; path := "/"; args := []; form := [("topic", topic)]; headers := [] |}.

Definition get_request : Request :=
  {| method := "GET"; path := "/"; args := []; form := []; headers := [] |}.

(** A POST for the same topic that carries much else besides. *)
Definition busy_request : Request :=
  {| method := "POST"; path := "/";
     args := [("utm_source", "newsletter")];
     form := [("csrf", "41"); ("topic", "cats"); ("topic", "dogs")];
     headers := [("User-Agent", "curl/8.5.0")] |}.

Definition fieldless_request : Request :=
  {| method := "POST"; path := "/"; args := []; form := [("subject", "cats")]; headers := [] |}.

Definition start (w : nat) : State nat := {| world := w; log := [] |}.

(** ** The contexts the view passes to the template *)

Definition empty_context : gmap string string := ∅.

Definition error_context (message : string) : gmap string string :=
  {[ "error" := message ]}.

Definition success_context (topic blog_content : string) : gmap string string :=
  <[ "topic" := topic ]> {[ "blog_content" := blog_content ]}.


(** The reading of the first testable property in which a topic of
    whitespace only counts as no topic: every POST with a blank topic gets
    the error page and leaves the crew alone. *)
Definition blank_topic_rejected {World Page : Type}
    (kickoff_impl : Crew -> gmap string string -> World -> Outcome PyVal * World)
    (render_impl : string -> gmap string string -> World -> Outcome Page * World) : Prop :=
  forall (request : Request) (st : State World),
    method request = "POST" ->
    blank_topic (multidict_get "topic" (form request)) = true ->
    index kickoff_impl render_impl request st
    = render_template render_impl "index.html" (error_context "Please enter a topic.") st
    /\ kickoff_calls (log (index kickoff_impl render_impl request st).2)
       = kickoff_calls (log st).

(** ** The paths through the view, read off lines 25-29 *)

(** The requests that get past both tests of the view: the method is POST
    and the "topic" field is a non-empty string. *)
Definition runs_crew (request : Request) : bool :=
  String.eqb (method request) "POST"
  && negb (py_not (multidict_get "topic" (form request))).

(** The run of the crew that line 34 asks for on such a request. *)
Definition kickoff_of (request : Request) : Event :=
  EKickoff crew {[ "topic" := default "" (multidict_get "topic" (form request)) ]}.

Definition is_render (ev : Event) : bool :=
  match ev with ERender _ _ => true | _ => false end.

Definition renderings (l : list Event) : list Event := List.filter is_render l.

(** The three contexts of lines 30, 39, 42 and 44: nothing, an error, or
    the submitted topic with blog content. *)
Definition form_context (request : Request) (context : gmap string string) : Prop :=
  context = empty_context
  \/ (exists message, context = error_context message)
  \/ (exists topic blog_content,
        multidict_get "topic" (form request) = Some topic
        /\ topic ≠ ""
        /\ context = success_context topic blog_content).

Definition form_rendering (request : Request) (ev : Event) : Prop :=
  match ev with
  | ERender template context => template = "index.html" /\ form_context request context
  | ECrew _ | ERequest _ | EKickoff _ _ => False
  end.

(** ** More test doubles *)

(** A template engine that is down: every rendering raises. *)
Definition broken_render (template : string) (context : gmap string string) (w : nat)
  : Outcome (string * gmap string string) * nat :=
  (Raises (Exc "TemplateNotFound" template), w).

(** ** The module body (lines 1-21, 23-24 and 46-47)

    What executing app.py does before any request: its import statements
    bind names, and its other statements look names up and call into the
    libraries.  A name is looked up in the module's namespace and then
    among the builtins; a name found in neither raises NameError, which
    ends the execution of the module.  The imports and the library calls
    are taken to return. *)

Inductive Call : Type :=
| CLoadDotenv
| CFlask (import_name : string)
| CCrew (c : Crew)
| CRoute (rule : string) (methods : list string) (endpoint : string)
| CRun (debug : bool).

(** The module while it executes: the names its namespace binds and the
    library calls made so far. *)
Record Module : Type := mkModule { globals : gset string; calls : list Call }.

Definition NameError (name : string) : PyExc :=
  Exc "NameError" ("name '" +:+ name +:+ "' is not defined").

(** The namespace a module starts with. *)
Definition fresh_module : Module :=
  {| globals := {[ "__name__"; "__doc__"; "__package__"; "__loader__"; "__spec__";
                   "__file__"; "__builtins__" ]};
     calls := [] |}.

Section ModuleBody.

(** The names of Python's [builtins] module. *)
Variable builtins : gset string.

Definition Stmt : Type := Module -> Outcome unit * Module.

Definition pass : Stmt := fun m => (Returns tt, m).

Definition seq (s1 s2 : Stmt) : Stmt :=
  fun m =>
    match s1 m with
    | (Returns _, m') => s2 m'
    | (Raises e, m') => (Raises e, m')
    end.

(** [import a] / [from a import b, c] / [x = ...]: the names become bound. *)
Definition bind_names (names : list string) : Stmt :=
  fun m => (Returns tt, {| globals := list_to_set names ∪ globals m; calls := calls m |}).

Definition load_name (name : string) : Stmt :=
  fun m =>
    if bool_decide (name ∈ globals m ∪ builtins) then (Returns tt, m)
    else (Raises (NameError name), m).

Definition call_library (c : Call) : Stmt :=
  fun m => (Returns tt, {| globals := globals m; calls := calls m ++ [c] |}).

Local Notation "s1 >> s2" := (seq s1 s2) (at level 62, right associativity).

Definition module_body (name : string) : Stmt :=
  (* lines 1-5 *)
  bind_names ["os"] >>
  bind_names ["load_dotenv"] >>
  bind_names ["research_task"; "write_task"] >>
  bind_names ["blog_researcher"; "blog_writer"] >>
  bind_names ["Flask"; "render_template"; "request"] >>
  (* line 8 *)
  load_name "load_dotenv" >> call_library CLoadDotenv >>
  (* line 10 *)
  load_name "Flask" >> load_name "__name__" >> call_library (CFlask name) >>
  bind_names ["app"] >>
  (* lines 13-21: the callee first, then the arguments in order *)
  load_name "Crew" >>
  load_name "blog_researcher" >> load_name "blog_writer" >>
  load_name "research_task" >> load_name "write_task" >>
  load_name "Process" >>
  call_library (CCrew crew) >> bind_names ["crew"] >>
  (* lines 23-24 *)
  load_name "app" >> call_library (CRoute "/" ["GET"; "POST"] "index") >>
  bind_names ["index"] >>
  (* lines 46-47 *)
  load_name "__name__" >>
  (if String.eqb name "__main__" then load_name "app" >> call_library (CRun true)
   else pass).

End ModuleBody.

(** A builtins module for the examples: Python's built-in functions. *)
Definition python_builtins : gset string :=
  list_to_set
    ["abs"; "all"; "any"; "ascii"; "bin"; "bool"; "bytes"; "callable"; "chr"; "dict";
     "dir"; "enumerate"; "filter"; "float"; "format"; "getattr"; "hasattr"; "hash";
     "id"; "input"; "int"; "isinstance"; "iter"; "len"; "list"; "map"; "max"; "min";
     "next"; "object"; "open"; "ord"; "print"; "range"; "repr"; "set"; "setattr";
     "sorted"; "str"; "sum"; "tuple"; "type"; "zip"; "Exception"; "NameError"].

(** ** When the rendering of the success page raises *)

(** On this request and in this state the view gets as far as line 39 and
    the rendering there, of [topic] with [blog_content], raises [e]: the
    method is POST, the topic is a non-empty string, [kickoff] returns in
    the world of the state, [get] returns, and the template engine raises
    in the world that [kickoff] left. *)
Definition success_rendering_raises {World Page : Type}
    (kickoff_impl : Crew -> gmap string string -> World -> Outcome PyVal * World)
    (render_impl : string -> gmap string string -> World -> Outcome Page * World)
    (request : Request) (st : State World)
    (topic blog_content : string) (e : PyExc) : Prop :=
  method request = "POST"
  /\ multidict_get "topic" (form request) = Some topic
  /\ topic ≠ ""
  /\ exists result w w',
       kickoff_impl crew {[ "topic" := topic ]} (world st) = (Returns result, w)
       /\ py_get result "write_task_output" "Blog generation failed." = Returns blog_content
       /\ render_impl "index.html" (success_context topic blog_content) w = (Raises e, w').

(** * Properties *)

Section Properties.

Context {World Page : Type}.
Variable kickoff_impl :
  Crew -> gmap string string -> World -> Outcome PyVal * World.
Variable render_impl :
  string -> gmap string string -> World -> Outcome Page * World.

Local Abbreviation view := (index kickoff_impl render_impl).
Local Abbreviation render := (render_template render_impl).

Lemma py_not_nonempty (topic : string) : topic ≠ "" -> py_not (Some topic) = false.
Proof. intros Hne. simpl. by apply String.eqb_neq. Qed.

Lemma py_not_true (o : option string) : py_not o = true <-> o = None \/ o = Some "".
Proof.
  destruct o as [s|]; simpl.
  - rewrite String.eqb_eq. split; [intros ->; by right | intros [?|[= ->]]; done].
  - split; [by left | done].
Qed.

(** The view on a POST whose topic is a non-empty string: the body of the
    [try] statement under its handler. *)
Lemma index_post_unfold (request : Request) (topic : string) (st : State World) :
  method request = "POST" ->
  multidict_get "topic" (form request) = Some topic ->
  topic ≠ "" ->
  view request st =
  try_except
    (result <- kickoff kickoff_impl crew {[ "topic" := topic ]} ;;
     blog_content <- lift (py_get result "write_task_output" "Blog generation failed.") ;;
     render "index.html" (success_context topic blog_content))
    (fun e => render "index.html" (error_context ("An error occurred: " +:+ str e)))
    st.
Proof.
  intros Hm Ht Hne. unfold index.
  rewrite Hm, Ht, (py_not_nonempty _ Hne). reflexivity.
Qed.

Lemma render_log (template : string) (context : gmap string string) (st : State World) :
  log (render template context st).2 = log st ++ [ERender template context].
Proof. unfold render_template. by destruct (render_impl _ _ _). Qed.


Lemma render_fst (template : string) (context : gmap string string) (st : State World) :
  (render template context st).1 = (render_impl template context (world st)).1.
Proof. unfold render_template. by destruct (render_impl _ _ _). Qed.

Lemma kickoff_calls_app (l1 l2 : list Event) :
  kickoff_calls (l1 ++ l2) = kickoff_calls l1 ++ kickoff_calls l2.
Proof. apply List.filter_app. Qed.

(** C5: a GET request gets the empty form -- the context has no topic, no
    blog content and no error -- and the crew is not run. *)
Theorem index_get_renders_empty_form (request : Request) (st : State World) :
  method request = "GET" ->
  view request st = render "index.html" empty_context st
  /\ log (view request st).2 = log st ++ [ERender "index.html" empty_context]
  /\ kickoff_calls (log (view request st).2) = kickoff_calls (log st)
  /\ forall key : string, empty_context !! key = None.
Proof.
  intros Hm.
  assert (Hv : view request st = render "index.html" empty_context st).
  { unfold index. by rewrite Hm. }
  rewrite Hv, render_log, kickoff_calls_app. simpl.
  split_and!; [done | done | by rewrite app_nil_r | intros key; apply lookup_empty].
Qed.

(** C2, as the code has it: a POST whose topic field is missing or empty
    gets the form with the error "Please enter a topic." and nothing
    else, and the crew is not run for it. *)
Theorem index_post_missing_or_empty_topic (request : Request) (st : State World) :
  method request = "POST" ->
  multidict_get "topic" (form request) = None
    \/ multidict_get "topic" (form request) = Some "" ->
  let context := error_context "Please enter a topic." in
  view request st = render "index.html" context st
  /\ log (view request st).2 = log st ++ [ERender "index.html" context]
  /\ kickoff_calls (log (view request st).2) = kickoff_calls (log st)
  /\ context !! "blog_content" = None
  /\ context !! "topic" = None.
Proof.
  intros Hm Ht context.
  assert (Hv : view request st = render "index.html" context st).
  { unfold index. rewrite Hm. simpl.
    by rewrite (proj2 (py_not_true _) Ht). }
  rewrite Hv, render_log, kickoff_calls_app. simpl.
  split_and!; [done | done | by rewrite app_nil_r | done | done].
Qed.

(** What the body of the [try] does once [kickoff] has returned. *)
Lemma index_after_kickoff (request : Request) (topic : string) (result : PyVal)
    (st : State World) (w : World) :
  method request = "POST" ->
  multidict_get "topic" (form request) = Some topic ->
  topic ≠ "" ->
  kickoff_impl crew {[ "topic" := topic ]} (world st) = (Returns result, w) ->
  view request st =
  try_except
    (blog_content <- lift (py_get result "write_task_output" "Blog generation failed.") ;;
     render "index.html" (success_context topic blog_content))
    (fun e => render "index.html" (error_context ("An error occurred: " +:+ str e)))
    (emit (EKickoff crew {[ "topic" := topic ]}) w st).
Proof.
  intros Hm Ht Hne Hk. rewrite (index_post_unfold _ topic) by done.
  unfold try_except, bind at 1, kickoff. by rewrite Hk.
Qed.

(** The view when the value to show is [blog_content]: the success page
    is what the template is asked for, and it is the reply when the
    template engine returns it. *)
Lemma index_shows (request : Request) (topic blog_content : string) (result : PyVal)
    (st : State World) (w : World) :
  method request = "POST" ->
  multidict_get "topic" (form request) = Some topic ->
  topic ≠ "" ->
  kickoff_impl crew {[ "topic" := topic ]} (world st) = (Returns result, w) ->
  py_get result "write_task_output" "Blog generation failed." = Returns blog_content ->
  let st1 := emit (EKickoff crew {[ "topic" := topic ]}) w st in
  let context := success_context topic blog_content in
  ERender "index.html" context ∈ log (view request st).2
  /\ forall (page : Page) (w' : World),
       render_impl "index.html" context w = (Returns page, w') ->
       view request st = (Returns page, emit (ERender "index.html" context) w' st1).
Proof.
  intros Hm Ht Hne Hk Hget st1 context.
  rewrite (index_after_kickoff _ topic result _ w) by done.
  unfold try_except, bind, lift. rewrite Hget.
  fold st1. fold context. unfold render_template at 1 3. simpl.
  destruct (render_impl "index.html" context w) as [[page|e] w'] eqn:Hr.
  - split; [simpl; set_solver | intros page' w'' [= <- <-]; done].
  - split; [rewrite render_log; simpl; set_solver | intros page' w'' [=]].
Qed.

(** C1: on a POST with a non-empty topic, when [crew.kickoff] returns a
    dict that maps "write_task_output" to [S], the view asks for the form
    with the submitted topic and with blog content [S], and that page is
    the reply. *)
Theorem index_post_success (request : Request) (topic S : string)
    (d : gmap string string) (st : State World) (w : World) :
  method request = "POST" ->
  multidict_get "topic" (form request) = Some topic ->
  topic ≠ "" ->
  kickoff_impl crew {[ "topic" := topic ]} (world st) = (Returns (VDict d), w) ->
  d !! "write_task_output" = Some S ->
  let st1 := emit (EKickoff crew {[ "topic" := topic ]}) w st in
  let context := success_context topic S in
  context !! "topic" = Some topic
  /\ context !! "blog_content" = Some S
  /\ ERender "index.html" context ∈ log (view request st).2
  /\ forall (page : Page) (w' : World),
       render_impl "index.html" context w = (Returns page, w') ->
       view request st = (Returns page, emit (ERender "index.html" context) w' st1).
Proof.
  intros Hm Ht Hne Hk HS st1 context.
  split; [apply lookup_insert_eq |].
  split; [unfold context, success_context; by simplify_map_eq |].
  apply (index_shows request topic S (VDict d)); try done.
  simpl. by rewrite HS.
Qed.

(** C4: on a POST with a non-empty topic, when [crew.kickoff] returns a
    dict without the key "write_task_output", the blog content shown is
    the default text "Blog generation failed.". *)
Theorem index_post_default_content (request : Request) (topic : string)
    (d : gmap string string) (st : State World) (w : World) :
  method request = "POST" ->
  multidict_get "topic" (form request) = Some topic ->
  topic ≠ "" ->
  kickoff_impl crew {[ "topic" := topic ]} (world st) = (Returns (VDict d), w) ->
  d !! "write_task_output" = None ->
  let st1 := emit (EKickoff crew {[ "topic" := topic ]}) w st in
  let context := success_context topic "Blog generation failed." in
  context !! "blog_content" = Some "Blog generation failed."
  /\ ERender "index.html" context ∈ log (view request st).2
  /\ forall (page : Page) (w' : World),
       render_impl "index.html" context w = (Returns page, w') ->
       view request st = (Returns page, emit (ERender "index.html" context) w' st1).
Proof.
  intros Hm Ht Hne Hk Hnone st1 context.
  split; [unfold context, success_context; by simplify_map_eq |].
  apply (index_shows request topic _ (VDict d)); try done.
  simpl. by rewrite Hnone.
Qed.

(** C3: on a POST with a non-empty topic, when [crew.kickoff] raises an
    exception whose text is [m], the view goes on to render the form with
    the error "An error occurred: " followed by [m]; the outcome of the
    view is the outcome of that rendering, the crew's exception does not
    leave the view, and no page with blog content is asked for. *)
Theorem index_post_kickoff_raises (request : Request) (topic m : string) (e : PyExc)
    (st : State World) (w : World) :
  method request = "POST" ->
  multidict_get "topic" (form request) = Some topic ->
  topic ≠ "" ->
  kickoff_impl crew {[ "topic" := topic ]} (world st) = (Raises e, w) ->
  str e = m ->
  let st1 := emit (EKickoff crew {[ "topic" := topic ]}) w st in
  let context := error_context ("An error occurred: " +:+ m) in
  view request st = render "index.html" context st1
  /\ log (view request st).2
     = log st ++ [EKickoff crew {[ "topic" := topic ]}; ERender "index.html" context]
  /\ context !! "blog_content" = None.
Proof.
  intros Hm Ht Hne Hk Hstr st1 context.
  assert (Hv : view request st = render "index.html" context st1).
  { rewrite (index_post_unfold _ topic) by done.
    unfold try_except, bind at 1, kickoff. rewrite Hk. by rewrite Hstr. }
  rewrite Hv, render_log. simpl. rewrite <- app_assoc.
  split_and!; done.
Qed.

(** C9: the [except] clause covers the whole body of the [try].  Once
    [crew.kickoff] has returned, an exception raised by [result.get] (as
    for [None], a [str] or any object without a [get] attribute, where it
    is an AttributeError) or by the rendering of the success page is
    caught, and the form is rendered with "An error occurred: " followed
    by the text of that exception. *)
Theorem except_covers_get_and_render (request : Request) (topic : string)
    (result : PyVal) (st : State World) (w : World) :
  method request = "POST" ->
  multidict_get "topic" (form request) = Some topic ->
  topic ≠ "" ->
  kickoff_impl crew {[ "topic" := topic ]} (world st) = (Returns result, w) ->
  let st1 := emit (EKickoff crew {[ "topic" := topic ]}) w st in
  let get := py_get result "write_task_output" "Blog generation failed." in
  (forall e : PyExc,
      get = Raises e ->
      view request st
      = render "index.html" (error_context ("An error occurred: " +:+ str e)) st1)
  /\ (forall (blog_content : string) (e : PyExc) (w' : World),
      get = Returns blog_content ->
      render_impl "index.html" (success_context topic blog_content) w = (Raises e, w') ->
      view request st
      = render "index.html" (error_context ("An error occurred: " +:+ str e))
          (emit (ERender "index.html" (success_context topic blog_content)) w' st1))
  /\ (match result with
      | VNone | VStr _ | VObj _ None => get = Raises (AttributeError result "get")
      | VDict _ | VObj _ (Some _) => True
      end).
Proof.
  intros Hm Ht Hne Hk st1 get.
  rewrite (index_after_kickoff _ topic result _ w) by done.
  fold st1. unfold try_except, bind, lift. fold get.
  split_and!.
  - intros e ->. done.
  - intros blog_content e w' -> Hr.
    unfold render_template at 1. simpl. by rewrite Hr.
  - by destruct result as [| |d|cls [g|]].
Qed.


(** The view reads the method and the first "topic" form field, and
    nothing else of the request. *)
Lemma index_reads_method_and_topic (r1 r2 : Request) (st : State World) :
  method r1 = method r2 ->
  multidict_get "topic" (form r1) = multidict_get "topic" (form r2) ->
  view r1 st = view r2 st.
Proof. intros Hm Ht. unfold index. by rewrite Hm, Ht. Qed.

(** C10: when what the crew and the template engine hand back is a
    function of their arguments alone (it does not vary with the state of
    the world), two requests with the same method and the same topic
    field get the same outcome from the view, whatever else they carry
    and whenever they are served. *)
Theorem index_deterministic (r1 r2 : Request) (st1 st2 : State World) :
  (forall c inputs w w', (kickoff_impl c inputs w).1 = (kickoff_impl c inputs w').1) ->
  (forall template context w w',
      (render_impl template context w).1 = (render_impl template context w').1) ->
  method r1 = method r2 ->
  multidict_get "topic" (form r1) = multidict_get "topic" (form r2) ->
  (view r1 st1).1 = (view r2 st2).1.
Proof.
  intros Hk Hr Hm Ht.
  rewrite (index_reads_method_and_topic r1 r2 st1) by done.
  assert (Hrender : forall template context (s1 s2 : State World),
             (render template context s1).1 = (render template context s2).1).
  { intros. rewrite !render_fst. apply Hr. }
  unfold index.
  destruct (String.eqb (method r2) "POST"); [|apply Hrender].
  destruct (py_not _); [apply Hrender|].
  unfold try_except, bind, kickoff, lift.
  specialize (Hk crew {[ "topic" := default "" (multidict_get "topic" (form r2)) ]}
                (world st1) (world st2)).
  destruct (kickoff_impl _ _ (world st1)) as [o1 w1].
  destruct (kickoff_impl _ _ (world st2)) as [o2 w2].
  simpl in Hk. subst o2.
  destruct o1 as [result|e]; [|apply Hrender].
  destruct (py_get _ _ _) as [blog_content|e]; [|apply Hrender].
  unfold render_template at 1 3. simpl.
  specialize (Hr "index.html"
                (<[ "topic" := default "" (multidict_get "topic" (form r2)) ]>
                   {[ "blog_content" := blog_content ]}) w1 w2).
  destruct (render_impl _ _ w1) as [p1 w1'].
  destruct (render_impl _ _ w2) as [p2 w2'].
  simpl in Hr. subst p2.
  destruct p1 as [page|e]; [done | apply Hrender].
Qed.

End Properties.

(** * The properties on the test doubles *)

Lemma index_post_success_witness :
  index cats_kickoff echo_render (post_request "cats") (start 0)
  = (Returns ("index.html", success_context "cats" "Cats are great."),
     {| world := 1;
        log := [EKickoff crew {[ "topic" := "cats" ]};
                ERender "index.html" (success_context "cats" "Cats are great.")] |}).
Proof.
  destruct (index_post_success cats_kickoff echo_render (post_request "cats")
              "cats" "Cats are great." {[ "write_task_output" := "Cats are great." ]}
              (start 0) 1)
    as (_ & _ & _ & Hreply);
    [reflexivity | reflexivity | discriminate | reflexivity | reflexivity |].
  apply Hreply. reflexivity.
Defined.

Lemma index_post_default_content_witness :
  index keyless_kickoff echo_render (post_request "cats") (start 0)
  = (Returns ("index.html", success_context "cats" "Blog generation failed."),
     {| world := 1;
        log := [EKickoff crew {[ "topic" := "cats" ]};
                ERender "index.html" (success_context "cats" "Blog generation failed.")] |}).
Proof.
  destruct (index_post_default_content keyless_kickoff echo_render (post_request "cats")
              "cats" {[ "research_task_output" := "notes" ]} (start 0) 1)
    as (_ & _ & Hreply);
    [reflexivity | reflexivity | discriminate | reflexivity | reflexivity |].
  apply Hreply. reflexivity.
Defined.

Lemma index_post_kickoff_raises_witness :
  index failing_kickoff echo_render (post_request "cats") (start 0)
  = (Returns ("index.html", error_context "An error occurred: rate limit exceeded"),
     {| world := 1;
        log := [EKickoff crew {[ "topic" := "cats" ]};
                ERender "index.html"
                  (error_context "An error occurred: rate limit exceeded")] |}).
Proof.
  destruct (index_post_kickoff_raises failing_kickoff echo_render (post_request "cats")
              "cats" "rate limit exceeded" (Exc "RuntimeError" "rate limit exceeded")
              (start 0) 1)
    as (Hview & _ & _);
    [reflexivity | reflexivity | discriminate | reflexivity | reflexivity |].
  exact Hview.
Defined.

Lemma index_post_missing_or_empty_topic_witness :
  index cats_kickoff echo_render (post_request "") (start 0)
  = (Returns ("index.html", error_context "Please enter a topic."),
     {| world := 0; log := [ERender "index.html" (error_context "Please enter a topic.")] |})
  /\ index cats_kickoff echo_render fieldless_request (start 0)
     = (Returns ("index.html", error_context "Please enter a topic."),
        {| world := 0; log := [ERender "index.html" (error_context "Please enter a topic.")] |}).
Proof.
  split.
  - destruct (index_post_missing_or_empty_topic cats_kickoff echo_render
                (post_request "") (start 0)) as (Hview & _);
      [reflexivity | right; reflexivity |].
    exact Hview.
  - destruct (index_post_missing_or_empty_topic cats_kickoff echo_render
                fieldless_request (start 0)) as (Hview & _);
      [reflexivity | left; reflexivity |].
    exact Hview.
Defined.

(** A topic of one space is blank, yet the crew is run for it and its
    blog content is shown. *)
Lemma whitespace_topic_runs_crew :
  method (post_request " ") = "POST"
  /\ blank_topic (multidict_get "topic" (form (post_request " "))) = true
  /\ index cats_kickoff echo_render (post_request " ") (start 0)
     = (Returns ("index.html", success_context " " "Cats are great."),
        {| world := 1;
           log := [EKickoff crew {[ "topic" := " " ]};
                   ERender "index.html" (success_context " " "Cats are great.")] |})
  /\ kickoff_calls (log (index cats_kickoff echo_render (post_request " ") (start 0)).2)
     = [EKickoff crew {[ "topic" := " " ]}]
  /\ ~ blank_topic_rejected cats_kickoff echo_render.
Proof.
  split_and!; [reflexivity | reflexivity | reflexivity | reflexivity |].
  intros Hclaim.
  destruct (Hclaim (post_request " ") (start 0) eq_refl eq_refl) as [_ Hcalls].
  apply (f_equal length) in Hcalls. vm_compute in Hcalls. discriminate Hcalls.
Qed.

Lemma index_get_renders_empty_form_witness :
  index cats_kickoff echo_render get_request (start 0)
  = (Returns ("index.html", empty_context),
     {| world := 0; log := [ERender "index.html" empty_context] |}).
Proof.
  destruct (index_get_renders_empty_form cats_kickoff echo_render get_request (start 0))
    as (Hview & _); [reflexivity |].
  exact Hview.
Defined.

Lemma except_covers_get_and_render_witness :
  index str_kickoff echo_render (post_request "cats") (start 0)
  = (Returns ("index.html",
              error_context "An error occurred: 'str' object has no attribute 'get'"),
     {| world := 1;
        log := [EKickoff crew {[ "topic" := "cats" ]};
                ERender "index.html"
                  (error_context "An error occurred: 'str' object has no attribute 'get'")] |})
  /\ index cats_kickoff picky_render (post_request "cats") (start 0)
     = (Returns ("index.html", error_context "An error occurred: unexpected end of template"),
        {| world := 1;
           log := [EKickoff crew {[ "topic" := "cats" ]};
                   ERender "index.html" (success_context "cats" "Cats are great.");
                   ERender "index.html"
                     (error_context "An error occurred: unexpected end of template")] |}).
Proof.
  split.
  - destruct (except_covers_get_and_render str_kickoff echo_render (post_request "cats")
                "cats" (VStr "Cats are great.") (start 0) 1)
      as (Hget & _ & _); [reflexivity | reflexivity | discriminate | reflexivity |].
    apply (Hget (AttributeError (VStr "Cats are great.") "get")). reflexivity.
  - destruct (except_covers_get_and_render cats_kickoff picky_render (post_request "cats")
                "cats" (VDict {[ "write_task_output" := "Cats are great." ]}) (start 0) 1)
      as (_ & Hrender & _); [reflexivity | reflexivity | discriminate | reflexivity |].
    apply (Hrender "Cats are great."
             (Exc "TemplateSyntaxError" "unexpected end of template") 1);
      reflexivity.
Defined.

Lemma index_deterministic_witness :
  (index cats_kickoff echo_render (post_request "cats") (start 0)).1
  = (index cats_kickoff echo_render busy_request
       {| world := 7; log := [ERequest get_request] |}).1.
Proof.
  apply (index_deterministic cats_kickoff echo_render);
    [intros; reflexivity | intros; reflexivity | reflexivity | reflexivity].
Defined.


(** * Further properties of the view and of the process *)

Section Coverage.

Context {World Page : Type}.
Variable kickoff_impl :
  Crew -> gmap string string -> World -> Outcome PyVal * World.
Variable render_impl :
  string -> gmap string string -> World -> Outcome Page * World.

Local Abbreviation view := (index kickoff_impl render_impl).
Local Abbreviation render := (render_template render_impl).

Lemma form_rendering_empty (request : Request) :
  form_rendering request (ERender "index.html" empty_context).
Proof. split; [done | by left]. Qed.

Lemma form_rendering_error (request : Request) (message : string) :
  form_rendering request (ERender "index.html" (error_context message)).
Proof. split; [done | right; left; by exists message]. Qed.

Lemma form_rendering_success (request : Request) (topic blog_content : string) :
  multidict_get "topic" (form request) = Some topic ->
  topic ≠ "" ->
  form_rendering request (ERender "index.html" (success_context topic blog_content)).
Proof. intros Ht Hne. split; [done | right; right; by exists topic, blog_content]. Qed.

(** Every path through the view: the run of the crew, if any, comes first
    and one or two renderings of the form follow. *)
Lemma index_log_shape (request : Request) (st : State World) :
  exists renders,
    log (view request st).2
    = log st ++ (if runs_crew request then [kickoff_of request] else []) ++ renders
    /\ Forall (form_rendering request) renders
    /\ (length renders = 1 \/ length renders = 2).
Proof.
  unfold index, runs_crew, kickoff_of.
  destruct (String.eqb (method request) "POST"); simpl.
  - destruct (multidict_get "topic" (form request)) as [topic|] eqn:Ht; simpl.
    + destruct (String.eqb_spec topic "") as [->|Hne]; simpl.
      * exists [ERender "index.html" (error_context "Please enter a topic.")].
        rewrite render_log.
        split_and!; [done | by apply Forall_singleton, form_rendering_error | by left].
      * unfold try_except, bind, kickoff, lift.
        destruct (kickoff_impl _ _ _) as [[result|e] w].
        -- destruct (py_get _ _ _) as [blog_content|e].
           ++ unfold render_template at 1. simpl.
              destruct (render_impl _ _ w) as [[page|e] w'].
              ** exists [ERender "index.html" (success_context topic blog_content)].
                 simpl. rewrite <- app_assoc.
                 split_and!; [done | | by left].
                 by apply Forall_singleton, form_rendering_success.
              ** exists [ERender "index.html" (success_context topic blog_content);
                         ERender "index.html" (error_context ("An error occurred: " +:+ str e))].
                 rewrite render_log. simpl. rewrite <- !app_assoc.
                 split_and!; [done | | by right].
                 apply Forall_cons; split;
                   [by apply form_rendering_success
                   | by apply Forall_singleton, form_rendering_error].
           ++ exists [ERender "index.html" (error_context ("An error occurred: " +:+ str e))].
              rewrite render_log. simpl. rewrite <- app_assoc.
              split_and!; [done | by apply Forall_singleton, form_rendering_error | by left].
        -- exists [ERender "index.html" (error_context ("An error occurred: " +:+ str e))].
           rewrite render_log. simpl. rewrite <- app_assoc.
           split_and!; [done | by apply Forall_singleton, form_rendering_error | by left].
    + exists [ERender "index.html" (error_context "Please enter a topic.")].
      rewrite render_log.
      split_and!; [done | by apply Forall_singleton, form_rendering_error | by left].
  - exists [ERender "index.html" empty_context]. rewrite render_log.
    split_and!; [done | by apply Forall_singleton, form_rendering_empty | by left].
Qed.




Lemma form_context_keys (request : Request) (context : gmap string string) :
  form_context request context ->
  dom context ⊆ ({[ "error"; "topic"; "blog_content" ]} : gset string)
  /\ (is_Some (context !! "error") ->
      context !! "topic" = None /\ context !! "blog_content" = None)
  /\ (is_Some (context !! "topic") <-> is_Some (context !! "blog_content"))
  /\ (forall topic, context !! "topic" = Some topic ->
        multidict_get "topic" (form request) = Some topic /\ topic ≠ "").
Proof.
  intros [-> | [[message ->] | (topic & blog_content & Ht & Hne & ->)]].
  - unfold empty_context. split_and!.
    + rewrite dom_empty_L. set_solver.
    + rewrite lookup_empty. by intros [? ?].
    + rewrite !lookup_empty. split; by intros [? ?].
    + intros topic. by rewrite lookup_empty.
  - unfold error_context. split_and!.
    + rewrite dom_singleton_L. set_solver.
    + intros _. by rewrite !lookup_singleton_ne.
    + rewrite !lookup_singleton_ne by done. split; by intros [? ?].
    + intros topic. by rewrite lookup_singleton_ne.
  - unfold success_context. split_and!.
    + rewrite dom_insert_L, dom_singleton_L. set_unfold. intros x [->| ->]; auto.
    + rewrite lookup_insert_ne, lookup_singleton_ne by done. by intros [? ?].
    + rewrite lookup_insert_eq, lookup_insert_ne, lookup_singleton_eq by done.
      split; intros _; by eexists.
    + intros topic'. rewrite lookup_insert_eq. by intros [= <-].
Qed.

(** X2: the contexts the view hands to the template, on every path: the
    template is "index.html"; the only keys are "error", "topic" and
    "blog_content"; an error is never shown together with a topic or with
    blog content; a topic comes with blog content and blog content with a
    topic; and a topic shown is the submitted one, non-empty. *)
Theorem index_rendered_contexts (request : Request) (st : State World) :
  exists ext,
    log (view request st).2 = log st ++ ext
    /\ forall template context,
         ERender template context ∈ ext ->
         template = "index.html"
         /\ dom context ⊆ ({[ "error"; "topic"; "blog_content" ]} : gset string)
         /\ (is_Some (context !! "error") ->
             context !! "topic" = None /\ context !! "blog_content" = None)
         /\ (is_Some (context !! "topic") <-> is_Some (context !! "blog_content"))
         /\ (forall topic, context !! "topic" = Some topic ->
               multidict_get "topic" (form request) = Some topic /\ topic ≠ "").
Proof.
  destruct (index_log_shape request st) as (renders & Hlog & Hr & _).
  eexists. split; [exact Hlog|].
  intros template context Hin.
  assert (Hin' : ERender template context ∈ renders).
  { apply elem_of_app in Hin as [Hin|Hin]; [|done].
    destruct (runs_crew request); [|by apply elem_of_nil in Hin].
    apply list_elem_of_singleton in Hin. discriminate Hin. }
  rewrite Forall_forall in Hr. destruct (Hr _ Hin') as [-> Hctx].
  split; [done | by apply (form_context_keys request)].
Qed.

Lemma render_raises (template : string) (context : gmap string string)
    (st st' : State World) (e : PyExc) :
  render template context st = (Raises e, st') ->
  render_impl template context (world st) = (Raises e, world st')
  /\ log st' = log st ++ [ERender template context].
Proof.
  unfold render_template.
  destruct (render_impl _ _ _) as [o w]. by intros [= -> <-].
Qed.

(** How the view ends: it returns a page, or its outcome is that of a
    rendering of a context without blog content (lines 30, 42 and 44). *)
Lemma index_ends (request : Request) (st : State World) :
  (exists page st', view request st = (Returns page, st'))
  \/ (exists context st0,
        context !! "blog_content" = None
        /\ view request st = render "index.html" context st0).
Proof.
  unfold index.
  destruct (String.eqb (method request) "POST"); [|right; by eexists ∅, st].
  destruct (py_not _); [right; by eexists {[ "error" := _ ]}, st|].
  unfold try_except, bind, kickoff, lift.
  destruct (kickoff_impl _ _ _) as [[result|e] w];
    [|right; by eexists {[ "error" := _ ]}, _].
  destruct (py_get _ _ _) as [blog_content|e];
    [|right; by eexists {[ "error" := _ ]}, _].
  destruct (render_template render_impl "index.html" (<["topic":=_]> _) _)
    as [[page|e] st1]; [left; by eauto | right; by eexists {[ "error" := _ ]}, _].
Qed.

(** X3: an exception leaves the view only when a rendering without blog
    content -- the empty form or an error page -- raised it, as the last
    thing the view did; an exception of the crew, of [result.get] or of
    the success rendering never leaves it. *)
Theorem index_raise_comes_from_plain_rendering (request : Request)
    (st st' : State World) (e : PyExc) :
  view request st = (Raises e, st') ->
  exists context w,
    render_impl "index.html" context w = (Raises e, world st')
    /\ context !! "blog_content" = None
    /\ last (log st') = Some (ERender "index.html" context).
Proof.
  intros Hv.
  destruct (index_ends request st) as [(page & st1 & Hret) | (context & st0 & Hb & Hren)].
  - rewrite Hret in Hv. discriminate Hv.
  - rewrite Hren in Hv. apply render_raises in Hv as [Himpl Hlog].
    exists context, (world st0). split_and!; [done | done |].
    rewrite Hlog. apply last_snoc.
Qed.

(** X4: when the template engine renders every context without blog
    content, the view returns a page for every request, whatever the crew
    hands back or raises and even if the success page cannot be rendered. *)
Theorem index_returns_when_plain_pages_render (request : Request) (st : State World) :
  (forall context w,
      context !! "blog_content" = None ->
      exists page w', render_impl "index.html" context w = (Returns page, w')) ->
  exists page st', view request st = (Returns page, st').
Proof.
  intros Hplain.
  destruct (index_ends request st) as [Hret | (context & st0 & Hb & ->)]; [done|].
  unfold render_template.
  destruct (Hplain context (world st0) Hb) as (page & w' & ->). by eauto.
Qed.

Lemma renderings_app (l1 l2 : list Event) :
  renderings (l1 ++ l2) = renderings l1 ++ renderings l2.
Proof. apply List.filter_app. Qed.

(** X5: how often the view renders.  When the rendering of the success
    page raises, the view renders exactly twice: the success context
    first and then the error page of line 42 with the text of that
    exception.  In every other case it renders exactly once. *)
Theorem index_renders_once_or_twice (request : Request) (st : State World) :
  (forall topic blog_content e,
      success_rendering_raises kickoff_impl render_impl request st topic blog_content e ->
      renderings (log (view request st).2)
      = renderings (log st)
        ++ [ERender "index.html" (success_context topic blog_content);
            ERender "index.html" (error_context ("An error occurred: " +:+ str e))])
  /\ ((forall topic blog_content e,
         ~ success_rendering_raises kickoff_impl render_impl request st
             topic blog_content e) ->
      exists context,
        renderings (log (view request st).2)
        = renderings (log st) ++ [ERender "index.html" context]).
Proof.
  split.
  - intros topic blog_content e (Hm & Ht & Hne & result & w & w' & Hk & Hget & Hr).
    rewrite (index_post_unfold kickoff_impl render_impl request topic) by done.
    unfold try_except, bind, kickoff, lift. rewrite Hk, Hget.
    unfold render_template at 1. simpl. rewrite Hr.
    rewrite render_log. simpl. rewrite <- !app_assoc, renderings_app. done.
  - intros Hnot. unfold index.
    destruct (String.eqb_spec (method request) "POST") as [Hm|Hm].
    + destruct (multidict_get "topic" (form request)) as [topic|] eqn:Ht; simpl.
      * destruct (String.eqb_spec topic "") as [->|Hne]; simpl.
        { eexists. by rewrite render_log, renderings_app. }
        unfold try_except, bind, kickoff, lift.
        destruct (kickoff_impl _ _ _) as [[result|e] w] eqn:Hk.
        -- destruct (py_get _ _ _) as [blog_content|e] eqn:Hget.
           ++ unfold render_template at 1. simpl.
              destruct (render_impl _ _ w) as [[page|e] w'] eqn:Hr.
              ** eexists. simpl. by rewrite <- app_assoc, renderings_app.
              ** destruct (Hnot topic blog_content e).
                 split_and!; [done | done | done |].
                 by exists result, w, w'.
           ++ eexists. rewrite render_log. simpl.
              by rewrite <- app_assoc, renderings_app.
        -- eexists. rewrite render_log. simpl.
           by rewrite <- app_assoc, renderings_app.
      * eexists. by rewrite render_log, renderings_app.
    + eexists. by rewrite render_log, renderings_app.
Qed.

Lemma render_returns (template : string) (context : gmap string string)
    (st st' : State World) (page : Page) :
  render template context st = (Returns page, st') ->
  render_impl template context (world st) = (Returns page, world st')
  /\ log st' = log st ++ [ERender template context].
Proof.
  unfold render_template.
  destruct (render_impl _ _ _) as [o w]. by intros [= -> <-].
Qed.

(** Every path through the view ends in a rendering of the form, whose
    outcome is the outcome of the view. *)
Lemma index_last_rendering (request : Request) (st : State World) :
  exists context st0,
    form_context request context
    /\ view request st = render "index.html" context st0.
Proof.
  unfold index.
  destruct (String.eqb (method request) "POST");
    [|exists empty_context, st; split; [by left | done]].
  destruct (multidict_get "topic" (form request)) as [topic|] eqn:Ht; simpl;
    [|eexists (error_context _), st; split; [right; left; by eexists | done]].
  destruct (String.eqb_spec topic "") as [->|Hne]; simpl;
    [eexists (error_context _), st; split; [right; left; by eexists | done]|].
  unfold try_except, bind, kickoff, lift.
  destruct (kickoff_impl _ _ _) as [[result|e] w];
    [|eexists (error_context _), _; split; [right; left; by eexists | done]].
  destruct (py_get _ _ _) as [blog_content|e];
    [|eexists (error_context _), _; split; [right; left; by eexists | done]].
  destruct (render_template render_impl "index.html" (<["topic":=_]> _) _)
    as [[page|e] st1] eqn:Hr;
    [|eexists (error_context _), _; split; [right; left; by eexists | done]].
  eexists (success_context topic blog_content), _. split; [|by rewrite <- Hr].
  right; right. by exists topic, blog_content.
Qed.

End Coverage.

(** * The further properties on the test doubles *)

Lemma index_raise_comes_from_plain_rendering_witness :
  exists context w,
    broken_render "index.html" context w = (Raises (Exc "TemplateNotFound" "index.html"), 1)
    /\ context !! "blog_content" = None
    /\ last [EKickoff crew {[ "topic" := "cats" ]};
             ERender "index.html" (success_context "cats" "Cats are great.");
             ERender "index.html" (error_context "An error occurred: index.html")]
       = Some (ERender "index.html" context).
Proof.
  apply (index_raise_comes_from_plain_rendering cats_kickoff broken_render
           (post_request "cats") (start 0)
           {| world := 1;
              log := [EKickoff crew {[ "topic" := "cats" ]};
                      ERender "index.html" (success_context "cats" "Cats are great.");
                      ERender "index.html"
                        (error_context "An error occurred: index.html")] |}).
  reflexivity.
Defined.

Lemma index_returns_when_plain_pages_render_witness :
  exists page st',
    index cats_kickoff picky_render (post_request "cats") (start 0) = (Returns page, st').
Proof.
  apply (index_returns_when_plain_pages_render cats_kickoff picky_render).
  intros context w Hplain. exists ("index.html", context), w.
  unfold picky_render. by rewrite Hplain.
Defined.

(** * The module body *)

Section ModuleProperties.

Variable builtins : gset string.

Lemma load_name_bound (name : string) (m : Module) :
  name ∈ globals m -> load_name builtins name m = (Returns tt, m).
Proof.
  intros Hin. unfold load_name.
  rewrite bool_decide_eq_true_2; [done | apply elem_of_union; by left].
Qed.

Lemma load_name_unbound (name : string) (m : Module) :
  name ∉ globals m -> name ∉ builtins ->
  load_name builtins name m = (Raises (NameError name), m).
Proof.
  intros Hg Hb. unfold load_name.
  rewrite bool_decide_eq_false_2; [done | by intros [?|?]%elem_of_union].
Qed.

Lemma seq_load_bound (name : string) (rest : Stmt) (m : Module) :
  name ∈ globals m -> seq (load_name builtins name) rest m = rest m.
Proof. intros Hin. unfold seq. by rewrite load_name_bound. Qed.

Lemma seq_load_unbound (name : string) (rest : Stmt) (m : Module) :
  name ∉ globals m -> name ∉ builtins ->
  seq (load_name builtins name) rest m = (Raises (NameError name), m).
Proof. intros Hg Hb. unfold seq. by rewrite load_name_unbound. Qed.

Ltac bound_name := vm_compute; reflexivity.

Ltac unbound_name := vm_compute; discriminate.

Ltac run_module :=
  repeat (first
    [ progress cbn [seq bind_names call_library pass globals calls fresh_module]
    | rewrite seq_load_bound by bound_name ]).

(** C6, on the code as it is: lines 1-5 bind neither [Crew] nor
    [Process], so the execution of the module ends at line 13 with
    NameError for [Crew], after [load_dotenv()] and [Flask(__name__)]
    only.  No crew is constructed, the names [crew] and [index] are never
    bound, no rule is registered and the server is not started. *)
Theorem module_body_raises_NameError (name : string) :
  "Crew" ∉ builtins ->
  exists m,
    module_body builtins name fresh_module = (Raises (NameError "Crew"), m)
    /\ calls m = [CLoadDotenv; CFlask name]
    /\ ("crew" ∉ globals m)
    /\ ("index" ∉ globals m).
Proof.
  intros Hcrew. unfold module_body. run_module.
  rewrite seq_load_unbound; [| unbound_name | done].
  eexists. split_and!; [done | done | unbound_name | unbound_name].
Qed.

Lemma seq_load_builtin (name : string) (rest : Stmt) (m : Module) :
  name ∈ builtins -> seq (load_name builtins name) rest m = rest m.
Proof.
  intros Hin. unfold seq, load_name.
  rewrite bool_decide_eq_true_2; [done | apply elem_of_union; by right].
Qed.

Ltac route_in_calls H :=
  cbn [calls app snd] in H;
  repeat (apply elem_of_cons in H as [H|H]; [try discriminate H|]);
  try (by apply elem_of_nil in H).

(** Whatever the builtins hold and whatever the module is run as, the
    only rule the module body registers is "/", for GET and POST, with
    the view [index]. *)
Lemma module_body_routes (name r ep : string) (ms : list string) :
  CRoute r ms ep ∈ calls (module_body builtins name fresh_module).2 ->
  r = "/" /\ ms = ["GET"; "POST"] /\ ep = "index".
Proof.
  unfold module_body. run_module.
  destruct (decide ("Crew" ∈ builtins)) as [Hc|Hc].
  - rewrite seq_load_builtin by done. run_module.
    destruct (decide ("Process" ∈ builtins)) as [Hp|Hp].
    + rewrite seq_load_builtin by done. run_module.
      destruct (String.eqb name "__main__"); run_module; intros H;
        route_in_calls H; by injection H as -> -> ->.
    + rewrite seq_load_unbound; [| unbound_name | done].
      intros H. route_in_calls H.
  - rewrite seq_load_unbound; [| unbound_name | done].
    intros H. route_in_calls H.
Qed.

End ModuleProperties.

(** * What the view replies *)

Section Replies.

Context {World Page : Type}.
Variable kickoff_impl :
  Crew -> gmap string string -> World -> Outcome PyVal * World.
Variable render_impl :
  string -> gmap string string -> World -> Outcome Page * World.

Local Abbreviation view := (index kickoff_impl render_impl).

(** C8, as the code has it.  Whatever the request and whatever the crew
    does: a page the view returns is the page that its last action, a
    rendering of "index.html" with one of the form's contexts, produced,
    handed back as it is (the view attaches no status to it); the view
    does return a page whenever the template engine renders the contexts
    without blog content; and the module registers the view on no rule
    but "/". *)
Theorem index_reply_is_rendered_form (request : Request) (st : State World)
    (builtins : gset string) (name : string) :
  (forall page st',
      view request st = (Returns page, st') ->
      exists context w,
        form_context request context
        /\ render_impl "index.html" context w = (Returns page, world st')
        /\ last (log st') = Some (ERender "index.html" context))
  /\ ((forall context w,
         context !! "blog_content" = None ->
         exists page w', render_impl "index.html" context w = (Returns page, w')) ->
      exists page st', view request st = (Returns page, st'))
  /\ (forall r ms ep,
        CRoute r ms ep ∈ calls (module_body builtins name fresh_module).2 ->
        r = "/" /\ ms = ["GET"; "POST"] /\ ep = "index").
Proof.
  split_and!.
  - intros page st' Hv.
    destruct (index_last_rendering kickoff_impl render_impl request st)
      as (context & st0 & Hctx & Hren).
    rewrite Hren in Hv. apply render_returns in Hv as [Himpl Hlog].
    exists context, (world st0). split_and!; [done | done |].
    rewrite Hlog. apply last_snoc.
  - intros Hplain.
    destruct (index_ends kickoff_impl render_impl request st)
      as [Hret | (context & st0 & Hb & ->)]; [done|].
    unfold render_template.
    destruct (Hplain context (world st0) Hb) as (page & w' & ->). by eauto.
  - intros r ms ep. apply module_body_routes.
Qed.

End Replies.

(** * The module body and the replies on the test doubles *)

Lemma module_body_raises_NameError_witness :
  exists m,
    module_body python_builtins "__main__" fresh_module
    = (Raises (Exc "NameError" "name 'Crew' is not defined"), m)
    /\ calls m = [CLoadDotenv; CFlask "__main__"]
    /\ ("crew" ∉ globals m)
    /\ ("index" ∉ globals m).
Proof.
  apply (module_body_raises_NameError python_builtins "__main__").
  vm_compute. discriminate.
Defined.

(** With a template engine that is down, the view returns no page: on a
    GET the exception of the rendering of line 44 leaves the view, and on
    a POST whose crew run fails, that of the rendering of line 42. *)
Lemma broken_renderer_leaves_view :
  index cats_kickoff broken_render get_request (start 0)
  = (Raises (Exc "TemplateNotFound" "index.html"),
     {| world := 0; log := [ERender "index.html" empty_context] |})
  /\ index failing_kickoff broken_render (post_request "cats") (start 0)
     = (Raises (Exc "TemplateNotFound" "index.html"),
        {| world := 1;
           log := [EKickoff crew {[ "topic" := "cats" ]};
                   ERender "index.html"
                     (error_context "An error occurred: rate limit exceeded")] |}).
Proof. split; reflexivity. Qed.

Lemma index_reply_is_rendered_form_witness :
  (exists context w,
      form_context (post_request "cats") context
      /\ echo_render "index.html" context w
         = (Returns ("index.html", success_context "cats" "Cats are great."), 1)
      /\ last [EKickoff crew {[ "topic" := "cats" ]};
               ERender "index.html" (success_context "cats" "Cats are great.")]
         = Some (ERender "index.html" context))
  /\ (exists page st',
        index failing_kickoff picky_render (post_request "cats") (start 0)
        = (Returns page, st')).
Proof.
  split.
  - apply (proj1 (index_reply_is_rendered_form cats_kickoff echo_render
                    (post_request "cats") (start 0) python_builtins "__main__")
             ("index.html", success_context "cats" "Cats are great.")
             {| world := 1;
                log := [EKickoff crew {[ "topic" := "cats" ]};
                        ERender "index.html"
                          (success_context "cats" "Cats are great.")] |}).
    reflexivity.
  - apply (proj1 (proj2 (index_reply_is_rendered_form failing_kickoff picky_render
                           (post_request "cats") (start 0) python_builtins "__main__"))).
    intros context w Hplain. exists ("index.html", context), w.
    unfold picky_render. by rewrite Hplain.
Defined.

Lemma index_renders_once_or_twice_witness :
  renderings (log (index cats_kickoff picky_render (post_request "cats") (start 0)).2)
  = [ERender "index.html" (success_context "cats" "Cats are great.");
     ERender "index.html" (error_context "An error occurred: unexpected end of template")].
Proof.
  apply (proj1 (index_renders_once_or_twice cats_kickoff picky_render
                  (post_request "cats") (start 0))
           "cats" "Cats are great."
           (Exc "TemplateSyntaxError" "unexpected end of template")).
  split_and!; [reflexivity | reflexivity | discriminate |].
  exists (VDict {[ "write_task_output" := "Cats are great." ]}), 1, 1.
  split_and!; reflexivity.
Defined.
